(** * pauth: the canonical authorization request ([pauth.requests.Request])

    A shallow embedding of [src/requests/__init__.py] and the properties of
    its construction, validation and header accessors.

    Conventions of the embedding:
    - a Python value that is either [None] or a [str] is a [pyobj];
    - [self.parameters] is a dict that is only probed by key and iterated for
      an order-insensitive [all(...)]: a [gmap string pyobj];
    - [self.headers] is a dict whose iteration order is observable through
      [get_header]: the list of its items in stored order;
    - [validate] raises and calls into the client registry, so it lives in a
      small state-and-error monad over a [World] holding the object and the
      log of registry calls;
    - [__new__] hands the host request to the adapter configured in
      [pauth.conf], which is not part of these sources; construction here is
      [__init__] on the adapter's output;
    - [str.lower()] is modelled on the ASCII letters. *)

From Stdlib Require Import Ascii String.
From stdpp Require Import gmap strings list fin_maps.

Open Scope string_scope.
Open Scope list_scope.

(** ** Python values *)

Inductive pyobj : Type :=
| PyNone
| PyStr (s : string).

#[global] Instance pyobj_eq_dec : EqDecision pyobj.
Proof. solve_decision. Defined.

#[global] Instance pyobj_inhabited : Inhabited pyobj := populate PyNone.

(** [d.get(k)]: the value stored under [k], or [None]. *)
Definition dict_get (d : gmap string pyobj) (k : string) : pyobj :=
  default PyNone (d !! k).

(** [k in d]. *)
Definition dict_contains (d : gmap string pyobj) (k : string) : bool :=
  bool_decide (is_Some (d !! k)).

(** The keys a [for p in d] loop visits. *)
Definition dict_keys (d : gmap string pyobj) : list string :=
  (map_to_list d).*1.

(** [p in t] for a tuple of strings. *)
Definition tuple_contains (t : list string) (p : string) : bool :=
  bool_decide (p ∈ t).

(** [str.lower()], on the ASCII letters. *)
Definition lower_ascii (c : ascii) : ascii :=
  let n := N_of_ascii c in
  if ((65 <=? n) && (n <=? 90))%N then ascii_of_N (n + 32) else c.

Fixpoint lower (s : string) : string :=
  match s with
  | EmptyString => EmptyString
  | String c s' => String (lower_ascii c) (lower s')
  end.

(** ** Collaborators that live outside [pauth.requests] *)

(** Modelled from the spec: [pauth.credentials.ClientCredentials] is not part
    of the sources at hand; the spec gives it the two attributes
    [identifier] and [secret], filled positionally by its constructor. *)
Record ClientCredentials : Type := mkClientCredentials {
  identifier : pyobj;
  secret : pyobj
}.

(** Modelled from the spec: [pauth.clients.Client] is not part of the sources
    at hand; the spec gives it the owned [credentials] and resolves its
    registration and authorization status against the registry on demand. *)
Record Client : Type := mkClient {
  credentials : ClientCredentials
}.

(** The external client registry, as far as [validate] can observe it: the
    answers of [Client.is_registered()] and [Client.is_authorized()]. *)
Record Registry : Type := mkRegistry {
  registered : Client -> bool;
  authorized : Client -> bool
}.

(** ** Errors *)

Inductive Error : Type :=
| InvalidAuthorizationRequestError (message : string)
| UnknownClientError (client : option Client)
| UnauthorizedClientError (client : option Client).

(** ** The request object and its class *)

(** What a subclass of [Request] may redefine as a class attribute. *)
Record RequestClass : Type := mkRequestClass {
  required_parameters : list string
}.

(** [class Request(object): required_parameters = ()] *)
Definition Request_class : RequestClass :=
  {| required_parameters := [] |}.

Record Request : Type := mkRequest {
  method : string;
  headers : list (string * pyobj);
  parameters : gmap string pyobj;
  client : option Client;
  response_type : pyobj;
  state : pyobj
}.

(** ** The monad of [validate] *)

Inductive Call : Type :=
| CallIsRegistered (c : Client)
| CallIsAuthorized (c : Client).

Record World : Type := mkWorld {
  self : Request;
  calls : list Call
}.

Definition M (A : Type) : Type := World -> (Error + A) * World.

#[global] Instance M_ret : MRet M := fun A (a : A) w => (inr a, w).

#[global] Instance M_bind : MBind M := fun A B (f : A -> M B) (m : M A) w =>
  match m w with
  | (inl e, w') => (inl e, w')
  | (inr a, w') => f a w'
  end.

Definition raise {A : Type} (e : Error) : M A := fun w => (inl e, w).

Definition get_self : M Request := fun w => (inr (self w), w).

Definition registry_call (c : Call) (answer : bool) : M bool := fun w =>
  (inr answer, {| self := self w; calls := calls w ++ [c] |}).

Definition is_registered (reg : Registry) (c : Client) : M bool :=
  registry_call (CallIsRegistered c) (registered reg c).

Definition is_authorized (reg : Registry) (c : Client) : M bool :=
  registry_call (CallIsAuthorized c) (authorized reg c).

(** ** Methods of [Request] *)

Definition missing_message : string :=
  "Some required request parameters are missing.".

(** [return all(p in self.required_parameters for p in self.parameters)] *)
Definition _has_required_parameters (cls : RequestClass) (s : Request) : bool :=
  forallb (tuple_contains (required_parameters cls)) (dict_keys (parameters s)).

Definition validate (cls : RequestClass) (reg : Registry) : M unit :=
  s ← get_self;
  if negb (_has_required_parameters cls s) then
    raise (InvalidAuthorizationRequestError missing_message)
  else
    match client s with
    | None => raise (UnknownClientError (client s))
    | Some c =>
        r ← is_registered reg c;
        if negb r then raise (UnknownClientError (client s))
        else
          a ← is_authorized reg c;
          if negb a then raise (UnauthorizedClientError (client s))
          else mret tt
    end.

(** Lines 34-46 of [__init__]: the attributes of the fresh object.  An omitted
    argument is [None] here; [headers or {}] and [parameters or {}] turn both
    [None] and an empty dict into an empty dict. *)
Definition init_attributes (method : option string)
    (headers : option (list (string * pyobj)))
    (parameters : option (gmap string pyobj)) : Request :=
  let parameters := default ∅ parameters in
  {| method := default "GET" method;
     headers := default [] headers;
     parameters := parameters;
     client :=
       match parameters !! "client_id" with
       | Some client_id =>
           Some (mkClient
                   (mkClientCredentials client_id
                      (dict_get parameters "client_secret")))
       | None => None
       end;
     response_type := dict_get parameters "response_type";
     state := dict_get parameters "state" |}.

(** [__init__]: set the attributes, then [self.validate()].  The result is the
    outcome of the constructor together with the object as it was left and the
    registry calls made. *)
Definition __init__ (cls : RequestClass) (reg : Registry)
    (method : option string) (headers : option (list (string * pyobj)))
    (parameters : option (gmap string pyobj)) : (Error + unit) * World :=
  validate cls reg
    {| self := init_attributes method headers parameters; calls := [] |}.

(** [return any(header.lower() == h.lower() for h in self.headers)] *)
Definition has_header (s : Request) (header : string) : bool :=
  existsb (fun h => String.eqb (lower header) (lower h)) (headers s).*1.

(** The filter of the generator in [get_header], on an item [(k, v)]:
    [k.lower() == header.lower()]. *)
Definition item_matches (header : string) (kv : string * pyobj) : bool :=
  String.eqb (lower kv.1) (lower header).

(** [return next((v for k, v in self.headers.items()
                  if k.lower() == header.lower()), None)] *)
Definition get_header (s : Request) (header : string) : pyobj :=
  match List.find (item_matches header) (headers s) with
  | Some kv => kv.2
  | None => PyNone
  end.

(** ** The required-parameter check as its docstring words it *)

(** "checking to see if the request has all the parameters defined in
    [required_parameters]": every required name is a key of the parameters.
    This follows the docstring of [_has_required_parameters], not its body. *)
Definition has_all_required_parameters (cls : RequestClass) (s : Request) : bool :=
  forallb (dict_contains (parameters s)) (required_parameters cls).

(** The required names that are not keys of the parameters. *)
Definition missing_parameters (cls : RequestClass) (s : Request) : list string :=
  List.filter (fun p => negb (dict_contains (parameters s) p)) (required_parameters cls).

(** [p in message] for two strings: [p] occurs in [message]. *)
Fixpoint str_contains (message p : string) : bool :=
  String.prefix p message ||
  match message with
  | EmptyString => false
  | String _ rest => str_contains rest p
  end.

(** The required names an error mentions in its message. *)
Definition names_in_error (cls : RequestClass) (e : Error) : list string :=
  match e with
  | InvalidAuthorizationRequestError message =>
      List.filter (str_contains message) (required_parameters cls)
  | _ => []
  end.

(** ** Concrete classes, registries and requests used below *)

(** A subclass with [required_parameters = ('client_id', 'response_type')]. *)
Definition code_class : RequestClass :=
  {| required_parameters := ["client_id"; "response_type"] |}.

(** A registry given by a table: an identifier is registered when the table
    has a row for it, and authorized when that row says so. *)
Definition table_registry (rows : gmap string bool) : Registry :=
  let row (c : Client) : option bool :=
    match identifier (credentials c) with
    | PyStr i => rows !! i
    | PyNone => None
    end in
  {| registered := fun c => bool_decide (is_Some (row c));
     authorized := fun c => default false (row c) |}.

(** "abc" registered and authorized. *)
Definition registry_abc : Registry := table_registry {[ "abc" := true ]}.

(** "abc" registered but not authorized. *)
Definition registry_abc_unauthorized : Registry :=
  table_registry {[ "abc" := false ]}.

Definition client_of (i : string) (sec : pyobj) : Client :=
  mkClient (mkClientCredentials (PyStr i) sec).

Definition params_A : gmap string pyobj :=
  <["client_id" := PyStr "abc"]>
    (<["client_secret" := PyStr "s3cr3t"]>
       (<["response_type" := PyStr "code"]>
          (<["state" := PyStr "xyz"]> ∅))).

Definition params_B : gmap string pyobj := {[ "response_type" := PyStr "code" ]}.

Definition params_C : gmap string pyobj := {[ "client_id" := PyStr "abc" ]}.

Definition params_D : gmap string pyobj := {[ "client_id" := PyStr "zzz" ]}.

Definition params_state_only : gmap string pyobj := {[ "state" := PyStr "xyz" ]}.

Definition params_valid : gmap string pyobj :=
  <["client_id" := PyStr "abc"]> (<["response_type" := PyStr "code"]> ∅).

Definition params_empty_id : gmap string pyobj := {[ "client_id" := PyStr "" ]}.

Definition headers_E : list (string * pyobj) :=
  [("Content-Type", PyStr "application/json")].

Definition headers_two_casings : list (string * pyobj) :=
  [("Accept", PyStr "*/*");
   ("X-Token", PyStr "first");
   ("x-token", PyStr "second")].

Definition request_with_headers (hs : list (string * pyobj)) : Request :=
  init_attributes None (Some hs) None.

(** A subclass with [required_parameters = ('response_type',)]. *)
Definition response_class : RequestClass :=
  {| required_parameters := ["response_type"] |}.

(** As [params_valid], with another value under [response_type]. *)
Definition params_valid_token : gmap string pyobj :=
  <["client_id" := PyStr "abc"]> (<["response_type" := PyStr "token"]> ∅).

Definition headers_none_value : list (string * pyobj) :=
  [("Accept", PyStr "*/*");
   ("X-Empty", PyNone);
   ("x-empty", PyStr "late")].

(** * Properties *)

(** ** The dictionary helpers *)

Lemma dict_contains_true (d : gmap string pyobj) (k : string) :
  dict_contains d k = true ↔ is_Some (d !! k).
Proof. unfold dict_contains. apply bool_decide_eq_true. Qed.

Lemma dict_keys_elem (d : gmap string pyobj) (k : string) :
  k ∈ dict_keys d ↔ is_Some (d !! k).
Proof.
  unfold dict_keys. rewrite list_elem_of_fmap. split.
  - intros [[k' v] [-> Hin]]. apply elem_of_map_to_list in Hin. by exists v.
  - intros [v Hv]. exists (k, v). split; [done |]. by apply elem_of_map_to_list.
Qed.

Lemma dict_keys_nil (d : gmap string pyobj) : dict_keys d = [] ↔ d = ∅.
Proof.
  unfold dict_keys. rewrite <- map_to_list_empty_iff.
  split.
  - apply fmap_nil_inv.
  - by intros ->.
Qed.

(** What the body of [_has_required_parameters] decides: every key of the
    parameters is one of the required names. *)
Lemma _has_required_parameters_true (cls : RequestClass) (s : Request) :
  _has_required_parameters cls s = true ↔
  ∀ p, is_Some (parameters s !! p) → p ∈ required_parameters cls.
Proof.
  unfold _has_required_parameters. rewrite forallb_forall. split.
  - intros H p Hp. apply dict_keys_elem, list_elem_of_In, H in Hp.
    unfold tuple_contains in Hp. by apply bool_decide_eq_true in Hp.
  - intros H p Hp. apply list_elem_of_In, dict_keys_elem, H in Hp.
    unfold tuple_contains. by apply bool_decide_eq_true.
Qed.

Lemma _has_required_parameters_empty (cls : RequestClass) (s : Request) :
  parameters s = ∅ → _has_required_parameters cls s = true.
Proof.
  intros H. apply _has_required_parameters_true. intros p [v Hv].
  rewrite H, lookup_empty in Hv. discriminate.
Qed.

Lemma has_all_required_parameters_true (cls : RequestClass) (s : Request) :
  has_all_required_parameters cls s = true ↔
  ∀ p, p ∈ required_parameters cls → is_Some (parameters s !! p).
Proof.
  unfold has_all_required_parameters. rewrite forallb_forall. split.
  - intros H p Hp. by apply dict_contains_true, H, list_elem_of_In.
  - intros H p Hp. by apply dict_contains_true, H, list_elem_of_In.
Qed.

(** ** Running [validate] *)

Ltac run_validate :=
  unfold validate, is_registered, is_authorized, registry_call, raise, get_self;
  unfold mbind, M_bind, mret, M_ret; simpl.

Section Validate.
Variable cls : RequestClass.
Variable reg : Registry.

Lemma validate_missing (w : World) :
  _has_required_parameters cls (self w) = false →
  validate cls reg w =
    (inl (InvalidAuthorizationRequestError missing_message), w).
Proof. intros H. run_validate. by rewrite H. Qed.

Lemma validate_no_client (w : World) :
  _has_required_parameters cls (self w) = true →
  client (self w) = None →
  validate cls reg w = (inl (UnknownClientError None), w).
Proof. intros H Hc. run_validate. by rewrite H, Hc. Qed.

Lemma validate_unregistered (w : World) (c : Client) :
  _has_required_parameters cls (self w) = true →
  client (self w) = Some c →
  registered reg c = false →
  validate cls reg w =
    (inl (UnknownClientError (Some c)),
     {| self := self w; calls := calls w ++ [CallIsRegistered c] |}).
Proof. intros H Hc Hr. run_validate. by rewrite H, Hc, Hr. Qed.

Lemma validate_unauthorized (w : World) (c : Client) :
  _has_required_parameters cls (self w) = true →
  client (self w) = Some c →
  registered reg c = true →
  authorized reg c = false →
  validate cls reg w =
    (inl (UnauthorizedClientError (Some c)),
     {| self := self w;
        calls := (calls w ++ [CallIsRegistered c]) ++ [CallIsAuthorized c] |}).
Proof. intros H Hc Hr Ha. run_validate. by rewrite H, Hc, Hr, Ha. Qed.

Lemma validate_accepts (w : World) (c : Client) :
  _has_required_parameters cls (self w) = true →
  client (self w) = Some c →
  registered reg c = true →
  authorized reg c = true →
  validate cls reg w =
    (inr tt,
     {| self := self w;
        calls := (calls w ++ [CallIsRegistered c]) ++ [CallIsAuthorized c] |}).
Proof. intros H Hc Hr Ha. run_validate. by rewrite H, Hc, Hr, Ha. Qed.

(** [validate] has no assignment to an attribute of [self]. *)
Lemma validate_self (w : World) : self (validate cls reg w).2 = self w.
Proof.
  run_validate.
  destruct (_has_required_parameters cls (self w)); simpl; [| done].
  destruct (client (self w)) as [c |]; simpl; [| done].
  destruct (registered reg c); simpl; [| done].
  by destruct (authorized reg c).
Qed.

(** The outcome of [validate] depends on the object only, not on the calls
    logged so far. *)
Lemma validate_outcome_self (w1 w2 : World) :
  self w1 = self w2 → (validate cls reg w1).1 = (validate cls reg w2).1.
Proof.
  intros H. run_validate. rewrite H.
  destruct (_has_required_parameters cls (self w2)); simpl; [| done].
  destruct (client (self w2)) as [c |]; simpl; [| done].
  destruct (registered reg c); simpl; [| done].
  by destruct (authorized reg c).
Qed.

(** A successful [validate] went through all four checks. *)
Lemma validate_ok_inv (w : World) :
  (validate cls reg w).1 = inr tt →
  _has_required_parameters cls (self w) = true ∧
  ∃ c, client (self w) = Some c ∧
       registered reg c = true ∧ authorized reg c = true.
Proof.
  run_validate.
  destruct (_has_required_parameters cls (self w)); simpl; [| done].
  destruct (client (self w)) as [c |]; simpl; [| done].
  destruct (registered reg c) eqn:Hr; simpl; [| done].
  destruct (authorized reg c) eqn:Ha; simpl; [| done].
  intros _. split; [done |]. by exists c.
Qed.
End Validate.

(** ** The attributes set by the constructor *)

Lemma init_client_present (m : option string)
    (hs : option (list (string * pyobj))) (ps : option (gmap string pyobj))
    (client_id : pyobj) :
  default ∅ ps !! "client_id" = Some client_id →
  client (init_attributes m hs ps) =
    Some (mkClient
            (mkClientCredentials client_id
               (dict_get (default ∅ ps) "client_secret"))).
Proof. intros H. unfold init_attributes. simpl. by rewrite H. Qed.

Lemma init_client_absent (m : option string)
    (hs : option (list (string * pyobj))) (ps : option (gmap string pyobj)) :
  default ∅ ps !! "client_id" = None →
  client (init_attributes m hs ps) = None.
Proof. intros H. unfold init_attributes. simpl. by rewrite H. Qed.

Lemma __init___self (cls : RequestClass) (reg : Registry) (m : option string)
    (hs : option (list (string * pyobj))) (ps : option (gmap string pyobj)) :
  self (__init__ cls reg m hs ps).2 = init_attributes m hs ps.
Proof. unfold __init__. by rewrite validate_self. Qed.

(** ** Order of the checks *)

(** C6: base validation checks (a) the required parameters, (b) that the
    client is not [None], (c) that it is registered, (d) that it is
    authorized, in this order, and stops at the first check that fails: a
    failed parameter check or a missing client leaves the log of registry
    calls as it was, an unregistered client is reported after the single call
    [is_registered], and [is_authorized] is called only after [is_registered]
    has answered [True]. *)
Theorem validate_checks_in_order (cls : RequestClass) (reg : Registry) (w : World) :
  (_has_required_parameters cls (self w) = false →
     validate cls reg w =
       (inl (InvalidAuthorizationRequestError missing_message), w)) ∧
  (_has_required_parameters cls (self w) = true → client (self w) = None →
     validate cls reg w = (inl (UnknownClientError None), w)) ∧
  (∀ c, _has_required_parameters cls (self w) = true →
        client (self w) = Some c →
     (registered reg c = false →
        validate cls reg w =
          (inl (UnknownClientError (Some c)),
           {| self := self w; calls := calls w ++ [CallIsRegistered c] |})) ∧
     (registered reg c = true → authorized reg c = false →
        validate cls reg w =
          (inl (UnauthorizedClientError (Some c)),
           {| self := self w;
              calls := (calls w ++ [CallIsRegistered c]) ++ [CallIsAuthorized c] |})) ∧
     (registered reg c = true → authorized reg c = true →
        validate cls reg w =
          (inr tt,
           {| self := self w;
              calls := (calls w ++ [CallIsRegistered c]) ++ [CallIsAuthorized c] |}))).
Proof.
  split; [apply validate_missing |].
  split; [apply validate_no_client |].
  intros c H Hc. repeat split.
  - by apply validate_unregistered.
  - by apply validate_unauthorized.
  - by apply validate_accepts.
Qed.

Lemma validate_checks_in_order_witness :
  (_has_required_parameters code_class
     (init_attributes None None (Some params_A)) = false ∧
   validate code_class registry_abc
     {| self := init_attributes None None (Some params_A); calls := [] |} =
     (inl (InvalidAuthorizationRequestError missing_message),
      {| self := init_attributes None None (Some params_A); calls := [] |})) ∧
  (_has_required_parameters code_class
     (init_attributes None None (Some params_D)) = true ∧
   client (init_attributes None None (Some params_D)) =
     Some (client_of "zzz" PyNone) ∧
   registered registry_abc (client_of "zzz" PyNone) = false ∧
   validate code_class registry_abc
     {| self := init_attributes None None (Some params_D); calls := [] |} =
     (inl (UnknownClientError (Some (client_of "zzz" PyNone))),
      {| self := init_attributes None None (Some params_D);
         calls := [CallIsRegistered (client_of "zzz" PyNone)] |})).
Proof.
  split.
  - split; [vm_compute; reflexivity |].
    apply (proj1 (validate_checks_in_order code_class registry_abc
                    {| self := init_attributes None None (Some params_A);
                       calls := [] |})).
    vm_compute; reflexivity.
  - split; [vm_compute; reflexivity |].
    split; [vm_compute; reflexivity |].
    split; [vm_compute; reflexivity |].
    apply (proj2 (proj2 (validate_checks_in_order code_class registry_abc
                    {| self := init_attributes None None (Some params_D);
                       calls := [] |}))
             (client_of "zzz" PyNone));
      vm_compute; reflexivity.
Defined.

(** ** Unknown and unauthorized clients *)

(** C5: when the required-parameter check passes and [client_id] is a key of
    the parameters, construction fails with [UnknownClientError] if the
    registry says the client is not registered, and with
    [UnauthorizedClientError] if it says registered but not authorized; each
    error is raised in that case only. *)
Theorem unknown_vs_unauthorized (cls : RequestClass) (reg : Registry)
    (m : option string) (hs : option (list (string * pyobj)))
    (ps : option (gmap string pyobj)) (client_id : pyobj) (c : Client) :
  _has_required_parameters cls (init_attributes m hs ps) = true →
  default ∅ ps !! "client_id" = Some client_id →
  c = mkClient (mkClientCredentials client_id
                  (dict_get (default ∅ ps) "client_secret")) →
  (registered reg c = false →
     (__init__ cls reg m hs ps).1 = inl (UnknownClientError (Some c))) ∧
  (registered reg c = true → authorized reg c = false →
     (__init__ cls reg m hs ps).1 = inl (UnauthorizedClientError (Some c))) ∧
  (∀ x, (__init__ cls reg m hs ps).1 = inl (UnknownClientError x) →
     registered reg c = false) ∧
  (∀ x, (__init__ cls reg m hs ps).1 = inl (UnauthorizedClientError x) →
     registered reg c = true ∧ authorized reg c = false).
Proof.
  intros H Hid ->.
  pose proof (init_client_present m hs ps client_id Hid) as Hc.
  set (c := mkClient _) in *.
  unfold __init__.
  set (w := {| self := init_attributes m hs ps; calls := [] |}).
  destruct (registered reg c) eqn:Hr; [destruct (authorized reg c) eqn:Ha |].
  - rewrite (validate_accepts cls reg w c H Hc Hr Ha). simpl.
    repeat split; done.
  - rewrite (validate_unauthorized cls reg w c H Hc Hr Ha). simpl.
    repeat split; done.
  - rewrite (validate_unregistered cls reg w c H Hc Hr). simpl.
    repeat split; done.
Qed.

Lemma unknown_vs_unauthorized_witness :
  (__init__ code_class registry_abc None None (Some params_D)).1 =
    inl (UnknownClientError (Some (client_of "zzz" PyNone))) ∧
  (__init__ code_class registry_abc_unauthorized None None (Some params_C)).1 =
    inl (UnauthorizedClientError (Some (client_of "abc" PyNone))).
Proof.
  split.
  - apply (proj1 (unknown_vs_unauthorized code_class registry_abc
                    None None (Some params_D) (PyStr "zzz")
                    (client_of "zzz" PyNone)
                    ltac:(vm_compute; reflexivity)
                    ltac:(vm_compute; reflexivity)
                    ltac:(vm_compute; reflexivity))).
    vm_compute; reflexivity.
  - apply (proj1 (proj2 (unknown_vs_unauthorized code_class
                    registry_abc_unauthorized
                    None None (Some params_C) (PyStr "abc")
                    (client_of "abc" PyNone)
                    ltac:(vm_compute; reflexivity)
                    ltac:(vm_compute; reflexivity)
                    ltac:(vm_compute; reflexivity))));
      vm_compute; reflexivity.
Defined.

(** ** Idempotence of [validate] *)

(** C9: on an object on which [validate] has completed without error, a
    second call of [validate] on the unchanged object completes without error
    as well, and neither call changes the object: [method], [headers],
    [parameters], [client], [response_type] and [state] are what they were. *)
Theorem validate_idempotent (cls : RequestClass) (reg : Registry) (w : World) :
  (validate cls reg w).1 = inr tt →
  self (validate cls reg w).2 = self w ∧
  (validate cls reg (validate cls reg w).2).1 = inr tt ∧
  self (validate cls reg (validate cls reg w).2).2 = self w ∧
  (∀ w' : World, self w' = self w → (validate cls reg w').1 = inr tt).
Proof.
  intros Hok. split; [apply validate_self |].
  split.
  - rewrite <- Hok. apply validate_outcome_self, validate_self.
  - split.
    + by rewrite !validate_self.
    + intros w' Hw'. rewrite <- Hok. by apply validate_outcome_self.
Qed.

Lemma validate_idempotent_witness :
  (validate code_class registry_abc
     {| self := init_attributes None None (Some params_valid); calls := [] |}).1
    = inr tt ∧
  (validate code_class registry_abc
     (validate code_class registry_abc
        {| self := init_attributes None None (Some params_valid);
           calls := [] |}).2).1 = inr tt.
Proof.
  split; [vm_compute; reflexivity |].
  apply (proj1 (proj2 (validate_idempotent code_class registry_abc
           {| self := init_attributes None None (Some params_valid);
              calls := [] |} ltac:(vm_compute; reflexivity)))).
Defined.

(** ** The required-parameter check *)

(** C1, as the spec words it, fails on the code, in both of its parts.  With
    only [client_id] under the class requiring [client_id] and
    [response_type], the name [response_type] is missing, yet the constructor
    raises nothing when the registry knows and authorizes the client.  With
    only [state], both required names are missing and the constructor does
    raise [InvalidAuthorizationRequestError], but the error mentions neither
    name. *)
Lemma missing_names_not_reported :
  (missing_parameters code_class (init_attributes None None (Some params_C)) =
     ["response_type"] ∧
   (__init__ code_class registry_abc None None (Some params_C)).1 = inr tt ∧
   ¬ ∃ message,
       (__init__ code_class registry_abc None None (Some params_C)).1 =
         inl (InvalidAuthorizationRequestError message)) ∧
  (missing_parameters code_class
     (init_attributes None None (Some params_state_only)) =
     ["client_id"; "response_type"] ∧
   ∃ e, (__init__ code_class registry_abc None None
           (Some params_state_only)).1 = inl e ∧
        names_in_error code_class e = []).
Proof.
  split.
  - split; [vm_compute; reflexivity |].
    split; [vm_compute; reflexivity |].
    intros [message H]. vm_compute in H. discriminate.
  - split; [vm_compute; reflexivity |].
    exists (InvalidAuthorizationRequestError missing_message).
    split; vm_compute; reflexivity.
Qed.

(** C1, amended: whenever the required-parameter check fails, the constructor
    raises [InvalidAuthorizationRequestError]; the error carries the fixed
    message and nothing else, and no registry call is made. *)
Theorem failed_check_raises_invalid_request (cls : RequestClass)
    (reg : Registry) (m : option string)
    (hs : option (list (string * pyobj))) (ps : option (gmap string pyobj)) :
  _has_required_parameters cls (init_attributes m hs ps) = false →
  __init__ cls reg m hs ps =
    (inl (InvalidAuthorizationRequestError missing_message),
     {| self := init_attributes m hs ps; calls := [] |}).
Proof. intros H. unfold __init__. by apply validate_missing. Qed.

Lemma failed_check_raises_invalid_request_witness :
  _has_required_parameters code_class
    (init_attributes None None (Some params_state_only)) = false ∧
  __init__ code_class registry_abc None None (Some params_state_only) =
    (inl (InvalidAuthorizationRequestError missing_message),
     {| self := init_attributes None None (Some params_state_only);
        calls := [] |}).
Proof.
  split; [vm_compute; reflexivity |].
  apply (failed_check_raises_invalid_request code_class registry_abc
           None None (Some params_state_only)).
  vm_compute; reflexivity.
Defined.

(** C2: the request of scenario A has every required name, its client is
    registered and authorized, and the object built has
    [response_type == "code"] and [state == "xyz"]; the constructor
    nevertheless raises [InvalidAuthorizationRequestError] before any registry
    call, because [client_secret] and [state] are not required names. *)
Theorem scenario_A_is_rejected :
  has_all_required_parameters code_class
    (init_attributes None None (Some params_A)) = true ∧
  registered registry_abc (client_of "abc" (PyStr "s3cr3t")) = true ∧
  authorized registry_abc (client_of "abc" (PyStr "s3cr3t")) = true ∧
  client (init_attributes None None (Some params_A)) =
    Some (client_of "abc" (PyStr "s3cr3t")) ∧
  response_type (init_attributes None None (Some params_A)) = PyStr "code" ∧
  state (init_attributes None None (Some params_A)) = PyStr "xyz" ∧
  _has_required_parameters code_class
    (init_attributes None None (Some params_A)) = false ∧
  __init__ code_class registry_abc None None (Some params_A) =
    (inl (InvalidAuthorizationRequestError missing_message),
     {| self := init_attributes None None (Some params_A); calls := [] |}).
Proof.
  repeat (split; [vm_compute; reflexivity |]).
  apply validate_missing. vm_compute; reflexivity.
Qed.

(** ** Requests without [client_id] *)

(** C3, as the spec words it, fails on the code: the parameters [{state: xyz}]
    have no [client_id], yet under the class requiring [client_id] and
    [response_type] the constructor raises
    [InvalidAuthorizationRequestError], because the parameter check runs
    before the client is looked at. *)
Lemma no_client_id_invalid_request :
  params_state_only !! "client_id" = None ∧
  (__init__ code_class registry_abc None None (Some params_state_only)).1 =
    inl (InvalidAuthorizationRequestError missing_message) ∧
  ¬ ∃ x, (__init__ code_class registry_abc None None
            (Some params_state_only)).1 = inl (UnknownClientError x).
Proof.
  split; [vm_compute; reflexivity |].
  split; [vm_compute; reflexivity |].
  intros [x H]. vm_compute in H. discriminate.
Qed.

(** C3, amended: when the parameters have no [client_id] key, the object's
    [client] is [None]; if the required-parameter check passes, the
    constructor raises [UnknownClientError] carrying that [None], without any
    registry call. *)
Theorem no_client_id_unknown_client (cls : RequestClass) (reg : Registry)
    (m : option string) (hs : option (list (string * pyobj)))
    (ps : option (gmap string pyobj)) :
  default ∅ ps !! "client_id" = None →
  client (self (__init__ cls reg m hs ps).2) = None ∧
  (_has_required_parameters cls (init_attributes m hs ps) = true →
   __init__ cls reg m hs ps =
     (inl (UnknownClientError None),
      {| self := init_attributes m hs ps; calls := [] |})).
Proof.
  intros Hid. pose proof (init_client_absent m hs ps Hid) as Hc. split.
  - by rewrite __init___self.
  - intros H. unfold __init__. by apply validate_no_client.
Qed.

Lemma no_client_id_unknown_client_witness :
  params_B !! "client_id" = None ∧
  _has_required_parameters code_class
    (init_attributes None None (Some params_B)) = true ∧
  client (self (__init__ code_class registry_abc None None (Some params_B)).2)
    = None ∧
  __init__ code_class registry_abc None None (Some params_B) =
    (inl (UnknownClientError None),
     {| self := init_attributes None None (Some params_B); calls := [] |}).
Proof.
  split; [vm_compute; reflexivity |].
  split; [vm_compute; reflexivity |].
  split.
  - apply (no_client_id_unknown_client code_class registry_abc
             None None (Some params_B)).
    vm_compute; reflexivity.
  - apply (proj2 (no_client_id_unknown_client code_class registry_abc
                    None None (Some params_B) ltac:(vm_compute; reflexivity))).
    vm_compute; reflexivity.
Defined.

(** ** The base class *)

Lemma _has_required_parameters_base (s : Request) :
  _has_required_parameters Request_class s = true ↔ parameters s = ∅.
Proof.
  split; [| apply _has_required_parameters_empty].
  intros H. apply dict_keys_nil.
  unfold _has_required_parameters in H.
  destruct (dict_keys (parameters s)) as [| k ks]; [done |].
  cbn [forallb] in H. apply andb_true_iff in H as [H _].
  unfold tuple_contains in H. apply bool_decide_eq_true in H.
  by apply not_elem_of_nil in H.
Qed.

(** C4: for the base class, whose [required_parameters] is empty, the
    constructor raises an error on every input: non-empty parameters fail the
    required-parameter check, empty parameters leave [client] at [None] and
    give [UnknownClientError]; the constructor never completes. *)
Theorem base_request_never_valid (reg : Registry) (m : option string)
    (hs : option (list (string * pyobj))) (ps : option (gmap string pyobj)) :
  (default ∅ ps ≠ ∅ →
     _has_required_parameters Request_class (init_attributes m hs ps) = false ∧
     __init__ Request_class reg m hs ps =
       (inl (InvalidAuthorizationRequestError missing_message),
        {| self := init_attributes m hs ps; calls := [] |})) ∧
  (default ∅ ps = ∅ →
     client (init_attributes m hs ps) = None ∧
     __init__ Request_class reg m hs ps =
       (inl (UnknownClientError None),
        {| self := init_attributes m hs ps; calls := [] |})) ∧
  (__init__ Request_class reg m hs ps).1 ≠ inr tt.
Proof.
  assert (Hne : default ∅ ps ≠ ∅ →
    _has_required_parameters Request_class (init_attributes m hs ps) = false).
  { intros Hps. apply not_true_is_false. intros H.
    by apply _has_required_parameters_base in H. }
  assert (He : default ∅ ps = ∅ → client (init_attributes m hs ps) = None).
  { intros Hps. apply init_client_absent. by rewrite Hps, lookup_empty. }
  split; [| split].
  - intros Hps. split; [by apply Hne |].
    unfold __init__. apply validate_missing. by apply Hne.
  - intros Hps. split; [by apply He |].
    unfold __init__. apply validate_no_client; simpl.
    + by apply _has_required_parameters_base.
    + by apply He.
  - unfold __init__.
    destruct (decide (default ∅ ps = ∅)) as [Hps | Hps].
    + rewrite validate_no_client; simpl; [done | | by apply He].
      by apply _has_required_parameters_base.
    + rewrite validate_missing; simpl; [done |]. by apply Hne.
Qed.

Lemma base_request_never_valid_witness :
  (params_C ≠ ∅ ∧
   (__init__ Request_class registry_abc None None (Some params_C)).1 =
     inl (InvalidAuthorizationRequestError missing_message)) ∧
  (__init__ Request_class registry_abc None None None).1 =
    inl (UnknownClientError None).
Proof.
  split.
  - assert (Hne : params_C ≠ ∅).
    { intros H. apply (f_equal (fun d => d !! "client_id")) in H.
      vm_compute in H. discriminate. }
    split; [exact Hne |].
    exact (f_equal fst
             (proj2 (proj1 (base_request_never_valid registry_abc None None
                              (Some params_C)) Hne))).
  - exact (f_equal fst
             (proj2 (proj1 (proj2 (base_request_never_valid registry_abc
                                     None None None)) eq_refl))).
Defined.

(** ** Credentials *)

(** C10: whether credentials are extracted depends on the presence of the key
    [client_id] only.  Whatever value the key maps to, the empty string
    included, the object is given a client whose credentials hold that value
    as identifier and [parameters.get('client_secret')] as secret. *)
Theorem credentials_by_presence_only (cls : RequestClass) (reg : Registry)
    (m : option string) (hs : option (list (string * pyobj)))
    (ps : option (gmap string pyobj)) (v : pyobj) :
  default ∅ ps !! "client_id" = Some v →
  client (self (__init__ cls reg m hs ps).2) =
    Some (mkClient (mkClientCredentials v
                      (dict_get (default ∅ ps) "client_secret"))).
Proof. intros H. rewrite __init___self. by apply init_client_present. Qed.

Lemma credentials_by_presence_only_witness :
  params_empty_id !! "client_id" = Some (PyStr "") ∧
  client (self (__init__ code_class registry_abc None None
                  (Some params_empty_id)).2) =
    Some (client_of "" PyNone).
Proof.
  split; [vm_compute; reflexivity |].
  apply (credentials_by_presence_only code_class registry_abc None None
           (Some params_empty_id) (PyStr "")).
  vm_compute; reflexivity.
Defined.

(** ** Header accessors *)

Section Headers.
Variable header : string.

Lemma has_header_exists (s : Request) :
  has_header s header = true ↔
  ∃ k v, (k, v) ∈ headers s ∧ lower k = lower header.
Proof.
  unfold has_header. rewrite existsb_exists. split.
  - intros [k [Hin Heq]]. apply String.eqb_eq in Heq.
    apply list_elem_of_In, list_elem_of_fmap in Hin as [[k' v] [-> Hin]].
    by exists k', v.
  - intros (k & v & Hin & Heq). exists k. split.
    + apply list_elem_of_In, list_elem_of_fmap. by exists (k, v).
    + apply String.eqb_eq. by rewrite Heq.
Qed.

Lemma find_header_app (l1 l2 : list (string * pyobj)) (kv : string * pyobj) :
  (∀ kv', kv' ∈ l1 → lower kv'.1 ≠ lower header) →
  lower kv.1 = lower header →
  List.find (item_matches header) (l1 ++ kv :: l2) = Some kv.
Proof.
  intros Hl1 Hkv. induction l1 as [| kv' l1 IH]; simpl.
  - unfold item_matches at 1. by rewrite Hkv, String.eqb_refl.
  - unfold item_matches at 1.
    destruct (String.eqb_spec (lower kv'.1) (lower header)) as [Heq | _].
    + exfalso. by apply (Hl1 kv'); [left |].
    + apply IH. intros kv'' Hin. apply Hl1. by right.
Qed.

Lemma find_header_split (l : list (string * pyobj)) (kv : string * pyobj) :
  List.find (item_matches header) l = Some kv →
  ∃ l1 l2, l = l1 ++ kv :: l2 ∧ lower kv.1 = lower header ∧
           ∀ kv', kv' ∈ l1 → lower kv'.1 ≠ lower header.
Proof.
  induction l as [| kv' l IH]; simpl; [done |].
  unfold item_matches at 1.
  destruct (String.eqb_spec (lower kv'.1) (lower header)) as [Heq | Hne].
  - intros [= ->]. exists [], l. split; [done |]. split; [done |].
    intros kv' Hin. by apply elem_of_nil in Hin.
  - intros H. destruct (IH H) as (l1 & l2 & -> & Hkv & Hl1).
    exists (kv' :: l1), l2. split; [done |]. split; [done |].
    intros kv'' Hin. apply elem_of_cons in Hin as [-> | Hin]; [done |].
    by apply Hl1.
Qed.

Lemma has_header_find (s : Request) :
  has_header s header = true ↔
  is_Some (List.find (item_matches header) (headers s)).
Proof.
  rewrite has_header_exists. split.
  - intros (k & v & Hin & Heq).
    destruct (List.find (item_matches header) (headers s)) as [kv |] eqn:Hf; [done |].
    apply list_elem_of_In in Hin.
    pose proof (find_none _ _ Hf (k, v) Hin) as Hno.
    unfold item_matches in Hno. simpl in Hno.
    rewrite Heq, String.eqb_refl in Hno. discriminate.
  - intros [[k v] Hf]. apply find_some in Hf as [Hin Heq].
    exists k, v. split; [by apply list_elem_of_In |].
    by apply String.eqb_eq in Heq.
Qed.

Lemma get_header_find (s : Request) :
  get_header s header =
    match List.find (item_matches header) (headers s) with
    | Some kv => kv.2
    | None => PyNone
    end.
Proof. reflexivity. Qed.
End Headers.

(** C7: when no header value is [None], [has_header(h)] is true exactly when
    [get_header(h)] is not [None]; both match a stored name [k] when
    [k.lower() == h.lower()], so every casing of [h] gives the same two
    answers. *)
Theorem has_header_iff_get_header (s : Request) (h : string) :
  (∀ k v, (k, v) ∈ headers s → v ≠ PyNone) →
  (has_header s h = true ↔ get_header s h ≠ PyNone) ∧
  (has_header s h = true ↔
     ∃ k v, (k, v) ∈ headers s ∧ lower k = lower h) ∧
  (∀ h', lower h' = lower h →
     has_header s h' = has_header s h ∧ get_header s h' = get_header s h).
Proof.
  intros Hvals. split; [| split].
  - rewrite has_header_find, get_header_find.
    destruct (List.find _ (headers s)) as [[k v] |] eqn:Hf; simpl.
    + split; [| by eauto]. intros _.
      apply find_some in Hf as [Hin _].
      apply (Hvals k v). by apply list_elem_of_In.
    + split; [by intros [? ?] | done].
  - apply has_header_exists.
  - intros h' Heq. unfold has_header, get_header, item_matches. by rewrite Heq.
Qed.

Lemma has_header_iff_get_header_witness :
  has_header (request_with_headers headers_E) "content-type" = true ∧
  get_header (request_with_headers headers_E) "CONTENT-TYPE" =
    PyStr "application/json" ∧
  (has_header (request_with_headers headers_E) "CONTENT-TYPE" = true ↔
   get_header (request_with_headers headers_E) "CONTENT-TYPE" ≠ PyNone).
Proof.
  split; [vm_compute; reflexivity |].
  split; [vm_compute; reflexivity |].
  apply (proj1 (has_header_iff_get_header (request_with_headers headers_E)
                  "CONTENT-TYPE"
                  ltac:(intros k v Hin;
                        apply list_elem_of_singleton in Hin;
                        injection Hin as _ ->; discriminate))).
Defined.

(** C8: [get_header(name)] returns the value of the first item, in the stored
    order of the headers, whose name equals [name] without comparing case;
    items after it, matching or not, do not matter. *)
Theorem get_header_first_match (s : Request) (h : string)
    (l1 l2 : list (string * pyobj)) (k : string) (v : pyobj) :
  headers s = l1 ++ (k, v) :: l2 →
  lower k = lower h →
  (∀ k' v', (k', v') ∈ l1 → lower k' ≠ lower h) →
  get_header s h = v.
Proof.
  intros Hs Hk Hl1. rewrite get_header_find, Hs.
  rewrite (find_header_app h l1 l2 (k, v)); [done | | done].
  intros [k' v'] Hin. by apply (Hl1 k' v').
Qed.

Lemma get_header_first_match_witness :
  get_header (request_with_headers headers_two_casings) "X-TOKEN" =
    PyStr "first".
Proof.
  apply (get_header_first_match (request_with_headers headers_two_casings)
           "X-TOKEN" [("Accept", PyStr "*/*")] [("x-token", PyStr "second")]
           "X-Token" (PyStr "first")).
  - reflexivity.
  - vm_compute; reflexivity.
  - intros k' v' Hin. apply list_elem_of_singleton in Hin.
    injection Hin as -> _. vm_compute. discriminate.
Defined.

(** * Further properties of the constructor *)

(** ** Shared inversions *)

Lemma init_client_inv (m : option string)
    (hs : option (list (string * pyobj))) (ps : option (gmap string pyobj))
    (c : Client) :
  client (init_attributes m hs ps) = Some c →
  ∃ client_id,
    default ∅ ps !! "client_id" = Some client_id ∧
    c = mkClient (mkClientCredentials client_id
                    (dict_get (default ∅ ps) "client_secret")).
Proof.
  unfold init_attributes. simpl.
  destruct (default ∅ ps !! "client_id") as [client_id |]; [| done].
  intros [= <-]. by exists client_id.
Qed.

Lemma __init___ok_inv (cls : RequestClass) (reg : Registry)
    (m : option string) (hs : option (list (string * pyobj)))
    (ps : option (gmap string pyobj)) :
  (__init__ cls reg m hs ps).1 = inr tt →
  _has_required_parameters cls (init_attributes m hs ps) = true ∧
  ∃ client_id,
    default ∅ ps !! "client_id" = Some client_id ∧
    registered reg
      (mkClient (mkClientCredentials client_id
                   (dict_get (default ∅ ps) "client_secret"))) = true ∧
    authorized reg
      (mkClient (mkClientCredentials client_id
                   (dict_get (default ∅ ps) "client_secret"))) = true.
Proof.
  unfold __init__. intros H.
  apply validate_ok_inv in H as [Hreq (c & Hc & Hr & Ha)]. simpl in *.
  split; [done |].
  apply (init_client_inv m hs ps) in Hc as (client_id & Hid & ->).
  by exists client_id.
Qed.

Lemma required_keys_only (cls : RequestClass) (s : Request) (p : string) :
  _has_required_parameters cls s = true →
  p ∉ required_parameters cls →
  dict_get (parameters s) p = PyNone.
Proof.
  intros H Hp. unfold dict_get.
  destruct (parameters s !! p) as [v |] eqn:Hv; [| done].
  exfalso. apply Hp.
  by apply (proj1 (_has_required_parameters_true cls s) H p).
Qed.

(** ** When construction succeeds *)

(** X1: the constructor completes exactly when every key of the parameters is
    one of the class's required names, [client_id] is among the keys, and the
    registry answers [True] to both [is_registered] and [is_authorized] for
    the client built from [client_id] and [client_secret]. *)
Theorem construction_succeeds_iff (cls : RequestClass) (reg : Registry)
    (m : option string) (hs : option (list (string * pyobj)))
    (ps : option (gmap string pyobj)) :
  (__init__ cls reg m hs ps).1 = inr tt ↔
  (∀ p, is_Some (default ∅ ps !! p) → p ∈ required_parameters cls) ∧
  ∃ client_id,
    default ∅ ps !! "client_id" = Some client_id ∧
    registered reg
      (mkClient (mkClientCredentials client_id
                   (dict_get (default ∅ ps) "client_secret"))) = true ∧
    authorized reg
      (mkClient (mkClientCredentials client_id
                   (dict_get (default ∅ ps) "client_secret"))) = true.
Proof.
  split.
  - intros H. apply __init___ok_inv in H as [Hreq Hrest].
    split; [| done].
    exact (proj1 (_has_required_parameters_true cls _) Hreq).
  - intros [Hkeys (client_id & Hid & Hr & Ha)].
    unfold __init__.
    set (w := {| self := init_attributes m hs ps; calls := [] |}).
    assert (Hreq : _has_required_parameters cls (self w) = true).
    { apply _has_required_parameters_true. exact Hkeys. }
    pose proof (init_client_present m hs ps client_id Hid : client (self w) = _)
      as Hc.
    by rewrite (validate_accepts cls reg w _ Hreq Hc Hr Ha).
Qed.

Lemma construction_succeeds_iff_witness :
  (__init__ code_class registry_abc (Some "POST") (Some headers_E)
     (Some params_valid)).1 = inr tt.
Proof.
  apply (proj2 (construction_succeeds_iff code_class registry_abc
                  (Some "POST") (Some headers_E) (Some params_valid))).
  split.
  - apply _has_required_parameters_true with (s := init_attributes None None (Some params_valid)).
    vm_compute; reflexivity.
  - exists (PyStr "abc"). repeat split; vm_compute; reflexivity.
Defined.

(** X2: when the parameters are omitted or empty, the constructor raises
    [UnknownClientError(None)] for every class, method, headers and registry,
    and the registry is not consulted. *)
Theorem empty_parameters_unknown_client (cls : RequestClass) (reg : Registry)
    (m : option string) (hs : option (list (string * pyobj)))
    (ps : option (gmap string pyobj)) :
  default ∅ ps = ∅ →
  __init__ cls reg m hs ps =
    (inl (UnknownClientError None),
     {| self := init_attributes m hs ps; calls := [] |}).
Proof.
  intros Hps. unfold __init__. apply validate_no_client.
  - by apply _has_required_parameters_empty.
  - apply (init_client_absent m hs ps). by rewrite Hps, lookup_empty.
Qed.

Lemma empty_parameters_unknown_client_witness :
  __init__ code_class registry_abc None None None =
    (inl (UnknownClientError None),
     {| self := init_attributes None None None; calls := [] |}) ∧
  (__init__ code_class registry_abc (Some "POST") (Some headers_E)
     (Some ∅)).1 = inl (UnknownClientError None).
Proof.
  split.
  - apply (empty_parameters_unknown_client code_class registry_abc
             None None None).
    reflexivity.
  - exact (f_equal fst
             (empty_parameters_unknown_client code_class registry_abc
                (Some "POST") (Some headers_E) (Some ∅) eq_refl)).
Defined.

(** X3: a class whose [required_parameters] does not contain [client_id]
    cannot be constructed: whatever the input and the registry, the
    constructor raises. *)
Theorem class_without_client_id_never_valid (cls : RequestClass)
    (reg : Registry) (m : option string)
    (hs : option (list (string * pyobj))) (ps : option (gmap string pyobj)) :
  "client_id" ∉ required_parameters cls →
  ∃ e, (__init__ cls reg m hs ps).1 = inl e.
Proof.
  intros Hno.
  destruct (__init__ cls reg m hs ps).1 as [e | []] eqn:Hres; [by exists e |].
  exfalso. apply __init___ok_inv in Hres as [Hreq (client_id & Hid & _)].
  apply Hno.
  apply (proj1 (_has_required_parameters_true cls _) Hreq "client_id").
  exists client_id. exact Hid.
Qed.

Lemma class_without_client_id_never_valid_witness :
  ("client_id" ∉ required_parameters response_class) ∧
  (∃ e, (__init__ response_class registry_abc None None
           (Some params_valid)).1 = inl e).
Proof.
  assert (H : "client_id" ∉ required_parameters response_class).
  { intros H. apply list_elem_of_singleton in H. discriminate. }
  split; [exact H |].
  exact (class_without_client_id_never_valid response_class registry_abc
           None None (Some params_valid) H).
Defined.

(** X4: a request that was constructed carries nothing beyond the required
    names: a parameter outside [required_parameters] is absent, so [state],
    [response_type] and the client's secret are [None] unless the class
    lists [state], [response_type] and [client_secret]. *)
Theorem valid_request_has_only_required (cls : RequestClass) (reg : Registry)
    (m : option string) (hs : option (list (string * pyobj)))
    (ps : option (gmap string pyobj)) :
  (__init__ cls reg m hs ps).1 = inr tt →
  (∀ p, p ∉ required_parameters cls →
     parameters (self (__init__ cls reg m hs ps).2) !! p = None) ∧
  ("state" ∉ required_parameters cls →
     state (self (__init__ cls reg m hs ps).2) = PyNone) ∧
  ("response_type" ∉ required_parameters cls →
     response_type (self (__init__ cls reg m hs ps).2) = PyNone) ∧
  ("client_secret" ∉ required_parameters cls →
     ∀ c, client (self (__init__ cls reg m hs ps).2) = Some c →
          secret (credentials c) = PyNone).
Proof.
  intros Hok. apply __init___ok_inv in Hok as [Hreq _].
  rewrite __init___self.
  pose proof (required_keys_only cls (init_attributes m hs ps)) as Hkeys.
  split; [| split; [| split]].
  - intros p Hp.
    destruct (parameters (init_attributes m hs ps) !! p) as [v |] eqn:Hv;
      [| done].
    exfalso. apply Hp.
    apply (proj1 (_has_required_parameters_true cls _) Hreq p). by exists v.
  - intros Hp. by apply (Hkeys "state").
  - intros Hp. by apply (Hkeys "response_type").
  - intros Hp c Hc.
    apply (init_client_inv m hs ps) in Hc as (client_id & _ & ->). simpl.
    by apply (Hkeys "client_secret").
Qed.

Lemma valid_request_has_only_required_witness :
  (__init__ code_class registry_abc None None (Some params_valid)).1 = inr tt ∧
  state (self (__init__ code_class registry_abc None None
                 (Some params_valid)).2) = PyNone.
Proof.
  split; [vm_compute; reflexivity |].
  apply (proj1 (proj2 (valid_request_has_only_required code_class
                         registry_abc None None (Some params_valid)
                         ltac:(vm_compute; reflexivity)))).
  apply (bool_decide_unpack _). vm_compute. exact I.
Defined.

(** ** What an error tells the caller *)

(** X5: each error of the constructor determines the check that failed.
    [InvalidAuthorizationRequestError] always has the fixed message and means
    that the parameter check failed, with no registry call;
    [UnknownClientError] carries the object's [client], which is either
    [None] with no registry call or a client the registry answered
    [is_registered() == False] for, after that single call;
    [UnauthorizedClientError] carries a client that is registered and not
    authorized, after exactly the two calls. *)
Theorem construction_error_inversion (cls : RequestClass) (reg : Registry)
    (m : option string) (hs : option (list (string * pyobj)))
    (ps : option (gmap string pyobj)) :
  (∀ message,
     (__init__ cls reg m hs ps).1 =
       inl (InvalidAuthorizationRequestError message) →
     message = missing_message ∧
     _has_required_parameters cls (init_attributes m hs ps) = false ∧
     calls (__init__ cls reg m hs ps).2 = []) ∧
  (∀ x,
     (__init__ cls reg m hs ps).1 = inl (UnknownClientError x) →
     x = client (init_attributes m hs ps) ∧
     _has_required_parameters cls (init_attributes m hs ps) = true ∧
     ((x = None ∧ calls (__init__ cls reg m hs ps).2 = []) ∨
      (∃ c, x = Some c ∧ registered reg c = false ∧
            calls (__init__ cls reg m hs ps).2 = [CallIsRegistered c]))) ∧
  (∀ x,
     (__init__ cls reg m hs ps).1 = inl (UnauthorizedClientError x) →
     x = client (init_attributes m hs ps) ∧
     _has_required_parameters cls (init_attributes m hs ps) = true ∧
     ∃ c, x = Some c ∧ registered reg c = true ∧ authorized reg c = false ∧
          calls (__init__ cls reg m hs ps).2 =
            [CallIsRegistered c; CallIsAuthorized c]).
Proof.
  unfold __init__.
  set (w := {| self := init_attributes m hs ps; calls := [] |}).
  change (init_attributes m hs ps) with (self w).
  destruct (_has_required_parameters cls (self w)) eqn:Hreq.
  - destruct (client (self w)) as [c |] eqn:Hc.
    + destruct (registered reg c) eqn:Hr; [destruct (authorized reg c) eqn:Ha |].
      * rewrite (validate_accepts cls reg w c Hreq Hc Hr Ha). simpl.
        repeat split; intros; discriminate.
      * rewrite (validate_unauthorized cls reg w c Hreq Hc Hr Ha). simpl.
        split; [intros; discriminate |]. split; [intros; discriminate |].
        intros x [= <-]. split; [done |]. split; [done |]. by exists c.
      * rewrite (validate_unregistered cls reg w c Hreq Hc Hr). simpl.
        split; [intros; discriminate |]. split; [| intros; discriminate].
        intros x [= <-]. split; [done |]. split; [done |]. right. by exists c.
    + rewrite (validate_no_client cls reg w Hreq Hc). simpl.
      split; [intros; discriminate |]. split; [| intros; discriminate].
      intros x [= <-]. split; [done |]. split; [done |]. by left.
  - rewrite (validate_missing cls reg w Hreq). simpl.
    split; [| split; intros; discriminate].
    by intros message [= <-].
Qed.

Lemma construction_error_inversion_witness :
  (__init__ code_class registry_abc None None (Some params_D)).1 =
    inl (UnknownClientError (Some (client_of "zzz" PyNone))) ∧
  calls (__init__ code_class registry_abc None None (Some params_D)).2 =
    [CallIsRegistered (client_of "zzz" PyNone)].
Proof.
  assert (H : (__init__ code_class registry_abc None None (Some params_D)).1 =
              inl (UnknownClientError (Some (client_of "zzz" PyNone)))).
  { vm_compute; reflexivity. }
  split; [exact H |].
  destruct (proj1 (proj2 (construction_error_inversion code_class registry_abc
                            None None (Some params_D))) _ H)
    as (_ & _ & [[Hx _] | (c & Hx & _ & Hcalls)]).
  - discriminate Hx.
  - injection Hx as <-. exact Hcalls.
Defined.

(** ** What the outcome depends on *)

Lemma _has_required_parameters_dom (cls : RequestClass) (s s' : Request) :
  dom (parameters s) = dom (parameters s') →
  _has_required_parameters cls s = _has_required_parameters cls s'.
Proof.
  intros Hdom. apply eq_true_iff_eq.
  rewrite !_has_required_parameters_true.
  split; intros H p Hp; apply H; apply elem_of_dom; apply elem_of_dom in Hp.
  - by rewrite Hdom.
  - by rewrite <- Hdom.
Qed.

Lemma validate_congr (cls : RequestClass) (reg : Registry) (w w' : World) :
  _has_required_parameters cls (self w) =
    _has_required_parameters cls (self w') →
  client (self w) = client (self w') →
  calls w = calls w' →
  (validate cls reg w).1 = (validate cls reg w').1 ∧
  calls (validate cls reg w).2 = calls (validate cls reg w').2.
Proof.
  destruct w as [s l], w' as [s' l']. simpl. intros Hreq Hc ->.
  run_validate. rewrite Hreq, Hc.
  destruct (_has_required_parameters cls s'); simpl; [| done].
  destruct (client s') as [c |]; simpl; [| done].
  destruct (registered reg c); simpl; [| done].
  by destruct (authorized reg c).
Qed.

(** X6: the outcome of the constructor and the registry calls it makes depend
    on the set of parameter names and on the values under [client_id] and
    [client_secret] only: the method, the headers and the values of all other
    parameters have no influence. *)
Theorem outcome_ignores_method_headers_values (cls : RequestClass)
    (reg : Registry) (m m' : option string)
    (hs hs' : option (list (string * pyobj))) (ps ps' : gmap string pyobj) :
  dom ps = dom ps' →
  ps !! "client_id" = ps' !! "client_id" →
  ps !! "client_secret" = ps' !! "client_secret" →
  (__init__ cls reg m hs (Some ps)).1 = (__init__ cls reg m' hs' (Some ps')).1 ∧
  calls (__init__ cls reg m hs (Some ps)).2 =
    calls (__init__ cls reg m' hs' (Some ps')).2.
Proof.
  intros Hdom Hid Hsecret. unfold __init__. apply validate_congr.
  - by apply _has_required_parameters_dom.
  - simpl. unfold dict_get. by rewrite Hid, Hsecret.
  - done.
Qed.

Lemma outcome_ignores_method_headers_values_witness :
  (__init__ code_class registry_abc (Some "POST") (Some headers_E)
     (Some params_valid_token)).1 =
  (__init__ code_class registry_abc None None (Some params_valid)).1.
Proof.
  apply (outcome_ignores_method_headers_values code_class registry_abc
           (Some "POST") None (Some headers_E) None
           params_valid_token params_valid).
  - unfold params_valid_token, params_valid.
    by rewrite !dom_insert_L.
  - vm_compute; reflexivity.
  - vm_compute; reflexivity.
Defined.

(** ** Adding a parameter *)

(** X7: the parameter check of a mapping with one more entry [k] is the check
    of the mapping without it, and [k in required_parameters]; so adding any
    name outside [required_parameters], to whatever parameters, makes the
    constructor raise [InvalidAuthorizationRequestError], and adding a
    required name never changes the check. *)
Theorem required_check_insert (cls : RequestClass) (reg : Registry)
    (m : option string) (hs : option (list (string * pyobj)))
    (ps : gmap string pyobj) (k : string) (v : pyobj) :
  _has_required_parameters cls (init_attributes m hs (Some (<[k:=v]> ps))) =
    tuple_contains (required_parameters cls) k &&
    _has_required_parameters cls (init_attributes m hs (Some ps)) ∧
  (k ∉ required_parameters cls →
     (__init__ cls reg m hs (Some (<[k:=v]> ps))).1 =
       inl (InvalidAuthorizationRequestError missing_message)).
Proof.
  assert (Heq :
    _has_required_parameters cls (init_attributes m hs (Some (<[k:=v]> ps))) =
      tuple_contains (required_parameters cls) k &&
      _has_required_parameters cls (init_attributes m hs (Some ps))).
  { apply eq_true_iff_eq.
    rewrite andb_true_iff, !_has_required_parameters_true.
    unfold tuple_contains. rewrite bool_decide_eq_true. simpl. split.
    - intros H. split.
      + apply H. rewrite lookup_insert_eq. by eexists.
      + intros p Hp. apply H. apply lookup_insert_is_Some.
        destruct (decide (k = p)); [by left | by right].
    - intros [Hk H] p Hp. apply lookup_insert_is_Some in Hp as [<- | [_ Hp]].
      + done.
      + by apply H. }
  split; [exact Heq |].
  intros Hk. unfold __init__. rewrite validate_missing; [done |].
  simpl. rewrite Heq. unfold tuple_contains.
  by rewrite bool_decide_eq_false_2.
Qed.

Lemma required_check_insert_witness :
  (__init__ code_class registry_abc None None
     (Some (<["scope" := PyStr "read"]> params_valid))).1 =
    inl (InvalidAuthorizationRequestError missing_message).
Proof.
  apply (proj2 (required_check_insert code_class registry_abc None None
                  params_valid "scope" (PyStr "read"))).
  apply (bool_decide_unpack _). vm_compute. exact I.
Defined.

(** * Further properties of the header accessors *)

Lemma lower_ascii_idempotent (c : ascii) :
  lower_ascii (lower_ascii c) = lower_ascii c.
Proof. destruct c as [[] [] [] [] [] [] [] []]; reflexivity. Qed.

Lemma lower_idempotent (s : string) : lower (lower s) = lower s.
Proof.
  induction s as [| c s IH]; simpl; [done |].
  by rewrite lower_ascii_idempotent, IH.
Qed.

Lemma find_header_concat (h : string) (l1 l2 : list (string * pyobj)) :
  List.find (item_matches h) (l1 ++ l2) =
    match List.find (item_matches h) l1 with
    | Some kv => Some kv
    | None => List.find (item_matches h) l2
    end.
Proof.
  induction l1 as [| kv l1 IH]; simpl; [done |].
  by destruct (item_matches h kv).
Qed.

Lemma find_header_unique (h : string) (l : list (string * pyobj))
    (k : string) (v : pyobj) :
  NoDup (lower <$> l.*1) →
  (k, v) ∈ l →
  lower k = lower h →
  List.find (item_matches h) l = Some (k, v).
Proof.
  intros Hnd Hin Hk. induction l as [| kv l IH]; [by apply elem_of_nil in Hin |].
  rewrite !fmap_cons in Hnd. apply NoDup_cons in Hnd as [Hfresh Hnd].
  simpl. unfold item_matches at 1.
  apply elem_of_cons in Hin as [<- | Hin].
  - simpl. by rewrite Hk, String.eqb_refl.
  - destruct (String.eqb_spec (lower kv.1) (lower h)) as [Heq | _].
    + exfalso. apply Hfresh. rewrite Heq, <- Hk.
      apply list_elem_of_fmap_2.
      by apply (list_elem_of_fmap_2 fst l (k, v)).
    + by apply IH.
Qed.

(** X8: a value returned by [get_header] is one that is stored: when
    [get_header(h)] is not [None], some stored name equal to [h] without
    comparing case holds that value, and [has_header(h)] is true.  No
    assumption on the stored values is needed for this direction. *)
Theorem get_header_sound (s : Request) (h : string) :
  get_header s h ≠ PyNone →
  has_header s h = true ∧
  ∃ k, (k, get_header s h) ∈ headers s ∧ lower k = lower h.
Proof.
  rewrite has_header_find, get_header_find.
  destruct (List.find (item_matches h) (headers s)) as [[k v] |] eqn:Hf;
    [| done].
  intros _. split; [by eexists |].
  apply find_some in Hf as [Hin Hm]. exists k. split.
  - by apply list_elem_of_In.
  - by apply String.eqb_eq in Hm.
Qed.

Lemma get_header_sound_witness :
  get_header (request_with_headers headers_two_casings) "x-TOKEN" ≠ PyNone ∧
  has_header (request_with_headers headers_two_casings) "x-TOKEN" = true.
Proof.
  assert (H : get_header (request_with_headers headers_two_casings) "x-TOKEN"
              ≠ PyNone).
  { vm_compute. discriminate. }
  split; [exact H |].
  exact (proj1 (get_header_sound (request_with_headers headers_two_casings)
                  "x-TOKEN" H)).
Defined.

(** X9: a header stored with the value [None] cannot be told from an absent
    one through [get_header]: when the first item matching [h] holds [None],
    [has_header(h)] is true and [get_header(h)] is [None], whatever later
    items hold. *)
Theorem none_valued_header_hidden (s : Request) (h : string)
    (l1 l2 : list (string * pyobj)) (k : string) :
  headers s = l1 ++ (k, PyNone) :: l2 →
  lower k = lower h →
  (∀ k' v', (k', v') ∈ l1 → lower k' ≠ lower h) →
  has_header s h = true ∧ get_header s h = PyNone.
Proof.
  intros Hs Hk Hl1.
  assert (Hf : List.find (item_matches h) (headers s) = Some (k, PyNone)).
  { rewrite Hs. apply find_header_app; [| done].
    intros [k' v'] Hin. by apply (Hl1 k' v'). }
  split.
  - apply has_header_find. rewrite Hf. by eexists.
  - by rewrite get_header_find, Hf.
Qed.

Lemma none_valued_header_hidden_witness :
  has_header (request_with_headers headers_none_value) "X-EMPTY" = true ∧
  get_header (request_with_headers headers_none_value) "X-EMPTY" = PyNone.
Proof.
  apply (none_valued_header_hidden (request_with_headers headers_none_value)
           "X-EMPTY" [("Accept", PyStr "*/*")] [("x-empty", PyStr "late")]
           "X-Empty").
  - reflexivity.
  - vm_compute; reflexivity.
  - intros k' v' Hin. apply list_elem_of_singleton in Hin.
    injection Hin as -> _. vm_compute. discriminate.
Defined.

(** X10: when no two stored names are equal without comparing case, every
    stored header is found again: for an item [(k, v)] of the headers,
    [get_header] returns [v] for [k], for [k.lower()] and for every other
    casing of [k], and [has_header] is true for them. *)
Theorem get_header_stored_value (s : Request) (k : string) (v : pyobj) :
  NoDup (lower <$> (headers s).*1) →
  (k, v) ∈ headers s →
  (∀ h, lower h = lower k → has_header s h = true ∧ get_header s h = v) ∧
  get_header s k = v ∧
  get_header s (lower k) = v.
Proof.
  intros Hnd Hin.
  assert (Hall : ∀ h, lower h = lower k →
                      has_header s h = true ∧ get_header s h = v).
  { intros h Hh.
    pose proof (find_header_unique h (headers s) k v Hnd Hin (eq_sym Hh)) as Hf.
    split.
    - apply has_header_find. rewrite Hf. by eexists.
    - by rewrite get_header_find, Hf. }
  split; [exact Hall |]. split.
  - by apply Hall.
  - apply Hall, lower_idempotent.
Qed.

Lemma get_header_stored_value_witness :
  get_header (request_with_headers headers_E) "content-type" =
    PyStr "application/json".
Proof.
  assert (Hnd : NoDup (lower <$> (headers (request_with_headers headers_E)).*1)).
  { apply NoDup_singleton. }
  assert (Hin : ("Content-Type", PyStr "application/json")
                ∈ headers (request_with_headers headers_E)).
  { apply list_elem_of_singleton. reflexivity. }
  exact (proj2 (proj2 (get_header_stored_value
                         (request_with_headers headers_E)
                         "Content-Type" (PyStr "application/json")
                         Hnd Hin))).
Defined.

(** X11: headers stored later never shadow earlier ones.  Over the items
    [hs1] followed by [hs2], [has_header] is the disjunction of the two
    answers, and [get_header] is the answer over [hs1] whenever [hs1] has a
    matching name, and the answer over [hs2] otherwise. *)
Theorem headers_concat (hs1 hs2 : list (string * pyobj)) (h : string) :
  has_header (request_with_headers (hs1 ++ hs2)) h =
    has_header (request_with_headers hs1) h ||
    has_header (request_with_headers hs2) h ∧
  get_header (request_with_headers (hs1 ++ hs2)) h =
    if has_header (request_with_headers hs1) h
    then get_header (request_with_headers hs1) h
    else get_header (request_with_headers hs2) h.
Proof.
  split.
  - unfold has_header. simpl. by rewrite fmap_app, existsb_app.
  - destruct (has_header (request_with_headers hs1) h) eqn:Hh.
    + apply has_header_find in Hh as [kv Hf].
      rewrite !get_header_find. simpl in *.
      by rewrite find_header_concat, Hf.
    + assert (Hf : List.find (item_matches h) hs1 = None).
      { destruct (List.find (item_matches h) hs1) as [kv |] eqn:Hf; [| done].
        assert (Htrue : has_header (request_with_headers hs1) h = true).
        { apply has_header_find. simpl. rewrite Hf. by eexists. }
        rewrite Hh in Htrue. discriminate. }
      rewrite !get_header_find. simpl.
      by rewrite find_header_concat, Hf.
Qed.

(** * Further properties of validation *)

(** X12: a subclass that lists more required names accepts every request its
    parent accepts: when every name of [required_parameters] of [cls] is also
    one of [cls'], an input the constructor of [cls] completes on is one the
    constructor of [cls'] completes on, with the same object and the same
    registry calls. *)
Theorem more_required_names_accept_more (cls cls' : RequestClass)
    (reg : Registry) (m : option string)
    (hs : option (list (string * pyobj))) (ps : option (gmap string pyobj)) :
  (∀ p, p ∈ required_parameters cls → p ∈ required_parameters cls') →
  (__init__ cls reg m hs ps).1 = inr tt →
  __init__ cls' reg m hs ps = __init__ cls reg m hs ps.
Proof.
  intros Hsub Hok. unfold __init__ in *.
  set (w := {| self := init_attributes m hs ps; calls := [] |}) in *.
  apply validate_ok_inv in Hok as [Hreq (c & Hc & Hr & Ha)].
  assert (Hreq' : _has_required_parameters cls' (self w) = true).
  { apply _has_required_parameters_true. intros p Hp. apply Hsub.
    by apply (proj1 (_has_required_parameters_true cls (self w)) Hreq p). }
  by rewrite (validate_accepts cls reg w c Hreq Hc Hr Ha),
             (validate_accepts cls' reg w c Hreq' Hc Hr Ha).
Qed.

Lemma more_required_names_accept_more_witness :
  (__init__ code_class registry_abc None None (Some params_C)).1 = inr tt.
Proof.
  assert (Hsub : ∀ p, p ∈ required_parameters
                         {| required_parameters := ["client_id"] |} →
                      p ∈ required_parameters code_class).
  { intros p Hp. apply list_elem_of_singleton in Hp as ->. by left. }
  assert (Hok : (__init__ {| required_parameters := ["client_id"] |}
                   registry_abc None None (Some params_C)).1 = inr tt).
  { vm_compute; reflexivity. }
  rewrite (more_required_names_accept_more
             {| required_parameters := ["client_id"] |} code_class
             registry_abc None None (Some params_C) Hsub Hok).
  exact Hok.
Defined.

(** X13: [validate] asks the registry again on every run.  On an object it
    accepts, a second run leaves the outcome and the object as they were and
    appends the same two calls, [is_registered] then [is_authorized], to the
    log once more. *)
Theorem validate_asks_registry_again (cls : RequestClass) (reg : Registry)
    (w : World) :
  (validate cls reg w).1 = inr tt →
  ∃ c, client (self w) = Some c ∧
       calls (validate cls reg w).2 =
         calls w ++ [CallIsRegistered c; CallIsAuthorized c] ∧
       validate cls reg (validate cls reg w).2 =
         (inr tt,
          {| self := self w;
             calls := calls w ++ [CallIsRegistered c; CallIsAuthorized c;
                                  CallIsRegistered c; CallIsAuthorized c] |}).
Proof.
  intros Hok. apply validate_ok_inv in Hok as [Hreq (c & Hc & Hr & Ha)].
  exists c. split; [done |].
  rewrite (validate_accepts cls reg w c Hreq Hc Hr Ha). simpl.
  split; [by rewrite <- app_assoc |].
  rewrite validate_accepts with (c := c); simpl; try done.
  by rewrite <- !app_assoc.
Qed.

Lemma validate_asks_registry_again_witness :
  ∃ c, client (init_attributes None None (Some params_valid)) = Some c ∧
       calls (validate code_class registry_abc
                (validate code_class registry_abc
                   {| self := init_attributes None None (Some params_valid);
                      calls := [] |}).2).2 =
         [CallIsRegistered c; CallIsAuthorized c;
          CallIsRegistered c; CallIsAuthorized c].
Proof.
  destruct (validate_asks_registry_again code_class registry_abc
              {| self := init_attributes None None (Some params_valid);
                 calls := [] |} ltac:(vm_compute; reflexivity))
    as (c & Hc & _ & H2).
  exists c. split; [exact Hc |]. by rewrite H2.
Defined.
